(** * Verification of the ESG merge / portfolio / insight pipeline
    (src/utils/esg_logic.py).

    Numbers of the dataframes are modelled as rationals [Q]; a missing
    value (pandas NaN) is [None] in an [option Q] column.  A dataframe is
    a list of row records, one record type per stage of the pipeline:
    each stage keeps the previous row as a field and adds its columns. *)

From Stdlib Require Import QArith Lqa String Ascii ZArith Sorted Permutation.
From stdpp Require Import base gmap strings list.

Open Scope Q_scope.

(** ** Rows of the dataframes *)

(** Row of the ticker dataframe [price_df]: only the columns the logic
    reads ([market], [last_price] as the API sends it, a string). *)
Record price_row := {
  p_market : string;
  p_last_price : string
}.

(** Row of [price_df] after [pd.to_numeric(..., errors='coerce')]. *)
Record price_num_row := {
  pn_market : string;
  pn_last_price : option Q
}.

(** Row of the static ESG csv [esg_df]. *)
Record esg_row := {
  e_market : string;
  e_name : string;
  e_esg_e : Q;
  e_esg_s : Q;
  e_esg_g : Q
}.

(** Row of [price_df.merge(esg_df, on="market", how="inner")]. *)
Record asset := {
  market : string;
  last_price : option Q;
  name : string;
  esg_e : Q;
  esg_s : Q;
  esg_g : Q
}.

(** Row after [compute_weighted_esg] and the rating column:
    columns ["ESG Score"] and ["ESG Rating"] added. *)
Record merged_row := {
  m_asset : asset;
  esg_score : Q;
  esg_rating : string
}.

(** Row after [calculate_portfolio_metrics]: columns ["Holding"] and
    ["Value (USD)"] added. *)
Record valued_row := {
  v_row : merged_row;
  holding : Q;
  value_usd : option Q
}.

(** ** pd.to_numeric(errors='coerce') on the ticker's decimal strings *)

Definition digit_val (c : ascii) : option Z :=
  let n := nat_of_ascii c in
  if (48 <=? n)%nat && (n <=? 57)%nat then Some (Z.of_nat (n - 48)) else None.

Fixpoint take_digits (cs : list ascii) (acc : Z) (k : nat)
  : Z * nat * list ascii :=
  match cs with
  | c :: rest =>
      match digit_val c with
      | Some d => take_digits rest (acc * 10 + d)%Z (S k)
      | None => (acc, k, cs)
      end
  | [] => (acc, k, [])
  end.

(** ASCII white space, as stripped by pandas' number parser. *)
Definition is_space (c : ascii) : bool :=
  match nat_of_ascii c with
  | 32 | 9 | 10 | 11 | 12 | 13 => true
  | _ => false
  end%nat.

Fixpoint drop_space (cs : list ascii) : list ascii :=
  match cs with
  | c :: rest => if is_space c then drop_space rest else cs
  | [] => []
  end.

Definition strip (cs : list ascii) : list ascii :=
  rev (drop_space (rev (drop_space cs))).

Definition take_sign (cs : list ascii) : Z * list ascii :=
  match cs with
  | "-"%char :: r => ((-1)%Z, r)
  | "+"%char :: r => (1%Z, r)
  | _ => (1%Z, cs)
  end.

(** A decimal literal [[+|-]digits[.digits][(e|E)[+|-]digits]], with
    surrounding white space and at least one mantissa digit, parses to its
    value, taken here exactly (pandas rounds it to the nearest float64);
    any other text, e.g. ["N/A"] or ["nan"], is coerced to NaN ([None]).
    The spellings ["inf"] and ["infinity"], which pandas reads as an
    infinite float, have no value in [Q]: they are outside this model. *)
Definition to_numeric (s : string) : option Q :=
  let cs := strip (list_ascii_of_string s) in
  let '(sign, cs1) := take_sign cs in
  let '(ip, ni, cs2) := take_digits cs1 0%Z 0 in
  let '(fp, nf, cs3) :=
    match cs2 with
    | "."%char :: r => take_digits r 0%Z 0
    | _ => (0%Z, 0%nat, cs2)
    end in
  let mant := inject_Z (sign * (ip * 10 ^ Z.of_nat nf + fp))
              / inject_Z (10 ^ Z.of_nat nf) in
  if (ni + nf =? 0)%nat then None
  else
    match cs3 with
    | [] => Some mant
    | e :: r =>
        if (e =? "e")%char || (e =? "E")%char then
          let '(esign, r1) := take_sign r in
          let '(ex, ne, r2) := take_digits r1 0%Z 0 in
          match r2 with
          | [] =>
              if (ne =? 0)%nat then None
              else if (esign =? 1)%Z then Some (mant * inject_Z (10 ^ ex))
              else Some (mant / inject_Z (10 ^ ex))
          | _ => None
          end
        else None
    end.

Definition coerce_row (p : price_row) : price_num_row :=
  {| pn_market := p_market p; pn_last_price := to_numeric (p_last_price p) |}.

(** ** Merge engine *)

(** [compute_weighted_esg]: ["ESG Score"] = (esg_e + esg_s + esg_g) / 3. *)
Definition compute_weighted_esg (a : asset) : Q :=
  (esg_e a + esg_s a + esg_g a) / 3.

Definition ge_b (x y : Q) : bool := Qle_bool y x.

Definition categorize_esg_score (score : Q) : string :=
  if ge_b score 80 then "A+ (Excellent)"
  else if ge_b score 70 then "A (Very Good)"
  else if ge_b score 60 then "B+ (Good)"
  else if ge_b score 50 then "B (Fair)"
  else if ge_b score 40 then "C+ (Below Average)"
  else "C (Poor)".

Definition join_rows (p : price_num_row) (e : esg_row) : asset :=
  {| market := pn_market p; last_price := pn_last_price p;
     name := e_name e; esg_e := e_esg_e e; esg_s := e_esg_s e;
     esg_g := e_esg_g e |}.

(** [left.merge(right, on="market", how="inner")]: for each left row in
    order, one output row per right row with the same key. *)
Definition inner_merge (ps : list price_num_row) (es : list esg_row)
  : list asset :=
  flat_map (fun p =>
    map (join_rows p)
      (List.filter (fun e => String.eqb (pn_market p) (e_market e)) es)) ps.

Definition score_row (a : asset) : merged_row :=
  let s := compute_weighted_esg a in
  {| m_asset := a; esg_score := s; esg_rating := categorize_esg_score s |}.

Definition merge_price_and_esg (price_df : list price_row)
  (esg_df : list esg_row) : list merged_row :=
  let price_num := map coerce_row price_df in
  let merged := inner_merge price_num esg_df in
  map score_row merged.

(** The same merge with the price coercion left as a parameter. *)
Definition coerce_row_with (coerce : string -> option Q) (p : price_row)
  : price_num_row :=
  {| pn_market := p_market p; pn_last_price := coerce (p_last_price p) |}.

Definition merge_with (coerce : string -> option Q) (price_df : list price_row)
  (esg_df : list esg_row) : list merged_row :=
  let price_num := map (coerce_row_with coerce) price_df in
  let merged := inner_merge price_num esg_df in
  map score_row merged.

(** ** Portfolio calculator *)

(** The sample holdings used when [holdings_dict is None]. *)
Definition default_holdings : gmap string Q :=
  list_to_map [("BTCUSDT", 1 # 2); ("ETHUSDT", 6 # 5); ("ADAUSDT", 100);
               ("MATICUSDT", 500); ("SOLUSDT", 10)].

(** [df["market"].map(holdings_dict).fillna(0)] on one row. *)
Definition holding_of (hd : gmap string Q) (r : merged_row) : Q :=
  match hd !! market (m_asset r) with
  | Some q => q
  | None => 0
  end.

(** ["Value (USD)"] = ["Holding"] * ["last_price"]; NaN stays NaN. *)
Definition add_holding (hd : gmap string Q) (r : merged_row) : valued_row :=
  let h := holding_of hd r in
  {| v_row := r; holding := h;
     value_usd := match last_price (m_asset r) with
                  | Some p => Some (h * p)
                  | None => None
                  end |}.

(** [Series.sum()]: NaN entries are skipped. *)
Fixpoint pd_sum (xs : list (option Q)) : Q :=
  match xs with
  | [] => 0
  | Some x :: rest => x + pd_sum rest
  | None :: rest => pd_sum rest
  end.

(** [(df[col] * df["Value (USD)"]).sum()] *)
Definition weighted_sum (col : valued_row -> Q) (df : list valued_row) : Q :=
  pd_sum (map (fun v => match value_usd v with
                        | Some x => Some (col v * x)
                        | None => None
                        end) df).

Definition col_score (v : valued_row) : Q := esg_score (v_row v).
Definition col_e (v : valued_row) : Q := esg_e (m_asset (v_row v)).
Definition col_s (v : valued_row) : Q := esg_s (m_asset (v_row v)).
Definition col_g (v : valued_row) : Q := esg_g (m_asset (v_row v)).

Record portfolio_metrics := {
  total_value : Q;
  weighted_esg : Q;
  weighted_environmental : Q;
  weighted_social : Q;
  weighted_governance : Q;
  num_holdings : nat
}.

Definition gt_b (x y : Q) : bool := negb (Qle_bool x y).

Definition calculate_portfolio_metrics (df : list merged_row)
  (holdings_dict : option (gmap string Q))
  : list valued_row * portfolio_metrics :=
  let hd := match holdings_dict with
            | None => default_holdings
            | Some h => h
            end in
  let df' := map (add_holding hd) df in
  let total := pd_sum (map value_usd df') in
  let '(w_esg, w_env, w_soc, w_gov) :=
    if gt_b total 0 then
      (weighted_sum col_score df' / total, weighted_sum col_e df' / total,
       weighted_sum col_s df' / total, weighted_sum col_g df' / total)
    else (0, 0, 0, 0) in
  (df', {| total_value := total;
           weighted_esg := w_esg;
           weighted_environmental := w_env;
           weighted_social := w_soc;
           weighted_governance := w_gov;
           num_holdings := length (List.filter (fun v => gt_b (holding v) 0) df') |}).

(** ** Insight generator *)

(** A raised Python exception: its class name and message. *)
Record py_exn := { exn_class : string; exn_msg : string }.

Inductive result (A : Type) :=
| Ok (a : A)
| Raise (e : py_exn).
Arguments Ok {A} a.
Arguments Raise {A} e.

(** [Series.idxmax()] / [idxmin()]: label of the first extremal entry;
    on an empty series numpy's argmax raises. [better x best] says that
    [x] replaces the current best. *)
Fixpoint arg_best_from (better : Q -> Q -> bool) (xs : list Q)
  (i bi : nat) (b : Q) : nat :=
  match xs with
  | [] => bi
  | x :: rest =>
      if better x b then arg_best_from better rest (S i) i x
      else arg_best_from better rest (S i) bi b
  end.

Definition arg_best (better : Q -> Q -> bool) (msg : string) (xs : list Q)
  : result nat :=
  match xs with
  | [] => Raise {| exn_class := "ValueError"; exn_msg := msg |}
  | x :: rest => Ok (arg_best_from better rest 1 0 x)
  end.

Definition idxmax (xs : list Q) : result nat :=
  arg_best gt_b "attempt to get argmax of an empty sequence" xs.

Definition idxmin (xs : list Q) : result nat :=
  arg_best (fun x b => gt_b b x) "attempt to get argmin of an empty sequence" xs.

(** The four f-string templates of [get_esg_insights], each carrying
    the values interpolated into it. *)
Inductive insight :=
| Highest (nm : string) (score : Q)      (* "Highest ESG Score: {name} ({score:.1f})" *)
| Lowest (nm : string) (score : Q)       (* "Lowest ESG Score: {name} ({score:.1f})" *)
| HighCount (high total : nat)           (* "{high}/{total} assets have ESG scores >= 70" *)
| EnvLeader (nm : string) (e : Q).       (* "Environmental Leader: {name} ({esg_e}/100)" *)

Definition row_name (v : valued_row) : string := name (m_asset (v_row v)).

Definition dummy_row : valued_row :=
  {| v_row := {| m_asset := {| market := ""; last_price := None; name := "";
                               esg_e := 0; esg_s := 0; esg_g := 0 |};
                 esg_score := 0; esg_rating := "" |};
     holding := 0; value_usd := None |}.

(** [df.loc[label]] on the fresh RangeIndex of the merged frame. *)
Definition loc (df : list valued_row) (i : nat) : valued_row :=
  nth i df dummy_row.

Definition get_esg_insights (df : list valued_row) : result (list insight) :=
  match idxmax (map col_score df) with
  | Raise e => Raise e
  | Ok ib =>
  match idxmin (map col_score df) with
  | Raise e => Raise e
  | Ok iw =>
  let best := loc df ib in
  let worst := loc df iw in
  let high_esg_count := length (List.filter (fun v => ge_b (col_score v) 70) df) in
  let total_count := length df in
  match idxmax (map col_e df) with
  | Raise e => Raise e
  | Ok ie =>
  let env_leader := loc df ie in
  Ok [Highest (row_name best) (col_score best);
      Lowest (row_name worst) (col_score worst);
      HighCount high_esg_count total_count;
      EnvLeader (row_name env_leader) (col_e env_leader)]
  end end end.

(** ** Spec-side reading of the rating table and the rating order *)

(** The threshold table as the specification lists it: evaluated top-down,
    the first row whose bound the score reaches gives the label. *)
Definition rating_table : list (Q * string) :=
  [(80, "A+ (Excellent)"); (70, "A (Very Good)"); (60, "B+ (Good)");
   (50, "B (Fair)"); (40, "C+ (Below Average)")].

Fixpoint first_match (score : Q) (tbl : list (Q * string)) (dflt : string)
  : string :=
  match tbl with
  | [] => dflt
  | (bound, lbl) :: rest =>
      if Qle_bool bound score then lbl else first_match score rest dflt
  end.

Definition rating_by_table (score : Q) : string :=
  first_match score rating_table "C (Poor)".

Definition rating_labels : list string :=
  ["A+ (Excellent)"; "A (Very Good)"; "B+ (Good)"; "B (Fair)";
   "C+ (Below Average)"; "C (Poor)"].

(** Rank of a label in A+ > A > B+ > B > C+ > C. *)
Definition rating_rank (lbl : string) : nat :=
  if String.eqb lbl "A+ (Excellent)" then 5
  else if String.eqb lbl "A (Very Good)" then 4
  else if String.eqb lbl "B+ (Good)" then 3
  else if String.eqb lbl "B (Fair)" then 2
  else if String.eqb lbl "C+ (Below Average)" then 1
  else 0.

(** ** The example scenario of the specification *)

Definition ex_prices : list price_row :=
  [{| p_market := "BTCUSDT"; p_last_price := "50000" |};
   {| p_market := "ETHUSDT"; p_last_price := "3000" |};
   {| p_market := "XRPUSDT"; p_last_price := "1" |}].

Definition ex_esg : list esg_row :=
  [{| e_market := "BTCUSDT"; e_name := "BTC"; e_esg_e := 40; e_esg_s := 40; e_esg_g := 40 |};
   {| e_market := "ETHUSDT"; e_name := "ETH"; e_esg_e := 70; e_esg_s := 70; e_esg_g := 70 |}].

Definition ex_holdings : gmap string Q :=
  list_to_map [("BTCUSDT", 1); ("ETHUSDT", 1)].

Example ex_merge_size : length (merge_price_and_esg ex_prices ex_esg) = 2%nat.
Proof. vm_compute. reflexivity. Qed.

Example ex_ratings :
  map esg_rating (merge_price_and_esg ex_prices ex_esg) = ["C+ (Below Average)"; "A (Very Good)"].
Proof. vm_compute. reflexivity. Qed.

Example ex_metrics :
  let m := snd (calculate_portfolio_metrics (merge_price_and_esg ex_prices ex_esg)
                  (Some ex_holdings)) in
  Qeq_bool (total_value m) 53000 = true /\
  Qeq_bool (weighted_esg m) ((40 * 50000 + 70 * 3000) / 53000) = true.
Proof. vm_compute. split; reflexivity. Qed.

Example ex_to_numeric :
  to_numeric "12.5" = Some (125 # 10) /\ to_numeric "-3" = Some (-3 # 1) /\
  to_numeric "N/A" = None /\ to_numeric "" = None /\ to_numeric "." = None /\
  to_numeric " 12 " = Some 12 /\ to_numeric "1e3" = Some 1000 /\
  to_numeric "1E-5" = Some (1 # 100000) /\ to_numeric "1e" = None /\
  to_numeric "nan" = None.
Proof. vm_compute. repeat split. Qed.

(** ** Comparison lemmas *)

Lemma ge_b_true x y : ge_b x y = true <-> y <= x.
Proof. unfold ge_b. apply Qle_bool_iff. Qed.

Lemma ge_b_false x y : ge_b x y = false <-> x < y.
Proof.
  unfold ge_b. split.
  - intros H. apply Qnot_le_lt. intros Hle. apply Qle_bool_iff in Hle. congruence.
  - intros H. destruct (Qle_bool y x) eqn:E; [|reflexivity].
    apply Qle_bool_iff in E. exfalso. apply (Qlt_not_le x y); assumption.
Qed.

Lemma gt_b_true x y : gt_b x y = true <-> y < x.
Proof.
  unfold gt_b. split; intros H.
  - destruct (Qle_bool x y) eqn:E; simpl in H; [discriminate|].
    apply Qnot_le_lt. intros Hle. apply Qle_bool_iff in Hle. congruence.
  - destruct (Qle_bool x y) eqn:E; [|reflexivity].
    apply Qle_bool_iff in E. exfalso. apply (Qlt_not_le y x); assumption.
Qed.

Lemma gt_b_false x y : gt_b x y = false <-> x <= y.
Proof.
  unfold gt_b. rewrite <- Qle_bool_iff.
  destruct (Qle_bool x y); simpl; split; congruence.
Qed.

Ltac q_facts :=
  repeat match goal with
  | H : ge_b _ _ = true |- _ => apply ge_b_true in H
  | H : ge_b _ _ = false |- _ => apply ge_b_false in H
  | H : gt_b _ _ = true |- _ => apply gt_b_true in H
  | H : gt_b _ _ = false |- _ => apply gt_b_false in H
  end.

Lemma categorize_is_table (s : Q) : categorize_esg_score s = rating_by_table s.
Proof. reflexivity. Qed.

(** ** C10: the rating function is total with six labels *)

(** C10. [categorize_esg_score] returns one of the six labels for every
    score, whatever its range; every score below 40 gets "C (Poor)" and
    every score of 80 or more gets "A+ (Excellent)". *)
Theorem categorize_total (q : Q) :
  In (categorize_esg_score q) rating_labels /\
  (q < 40 -> categorize_esg_score q = "C (Poor)") /\
  (80 <= q -> categorize_esg_score q = "A+ (Excellent)").
Proof.
  unfold categorize_esg_score.
  destruct (ge_b q 80) eqn:H80, (ge_b q 70) eqn:H70, (ge_b q 60) eqn:H60,
    (ge_b q 50) eqn:H50, (ge_b q 40) eqn:H40; q_facts;
    (split; [cbn; tauto | split; intros; first [reflexivity | exfalso; lra]]).
Qed.

(** ** C6: monotonicity of the rating *)

(** C6. A strictly higher score never gets a strictly lower-ranked label
    (A+ > A > B+ > B > C+ > C). *)
Theorem categorize_monotone (x y : Q) :
  y < x ->
  (rating_rank (categorize_esg_score y) <= rating_rank (categorize_esg_score x))%nat.
Proof.
  intros Hxy. unfold categorize_esg_score.
  destruct (ge_b x 80) eqn:X80, (ge_b x 70) eqn:X70, (ge_b x 60) eqn:X60,
    (ge_b x 50) eqn:X50, (ge_b x 40) eqn:X40;
  destruct (ge_b y 80) eqn:Y80, (ge_b y 70) eqn:Y70, (ge_b y 60) eqn:Y60,
    (ge_b y 50) eqn:Y50, (ge_b y 40) eqn:Y40; q_facts;
    first [vm_compute; lia | exfalso; lra].
Qed.

(** ** C5: score and rating of every merged asset *)

Lemma in_merge (prices : list price_row) (esg : list esg_row) (r : merged_row) :
  In r (merge_price_and_esg prices esg) <->
  exists p e, In p prices /\ In e esg /\ p_market p = e_market e /\
              r = score_row (join_rows (coerce_row p) e).
Proof.
  unfold merge_price_and_esg, inner_merge. rewrite in_map_iff. split.
  - intros (a & <- & Ha). apply in_flat_map in Ha as (pn & Hpn & Ha).
    apply in_map_iff in Hpn as (p & <- & Hp).
    apply in_map_iff in Ha as (e & <- & He).
    apply filter_In in He as (He & Heq). apply String.eqb_eq in Heq.
    exists p, e. repeat split; auto.
  - intros (p & e & Hp & He & Heq & ->). eexists. split; [reflexivity|].
    apply in_flat_map. exists (coerce_row p). split; [apply in_map; exact Hp|].
    apply in_map. apply filter_In. split; [exact He|]. apply String.eqb_eq. exact Heq.
Qed.

(** C5. Every merged asset has ESG Score = (esg_e + esg_s + esg_g) / 3
    and the ESG Rating given by the top-down threshold table. *)
Theorem merged_score_and_rating (prices : list price_row) (esg : list esg_row)
  (r : merged_row) :
  In r (merge_price_and_esg prices esg) ->
  esg_score r = (esg_e (m_asset r) + esg_s (m_asset r) + esg_g (m_asset r)) / 3 /\
  esg_rating r = rating_by_table (esg_score r).
Proof.
  intros Hr. apply in_merge in Hr as (p & e & _ & _ & _ & ->).
  split; reflexivity.
Qed.

(** ** C4: the zero-division guard *)

(** C4. When the total portfolio value is 0, the four weighted metrics
    are 0 (no division by the zero total). *)
Theorem zero_total_metrics (df : list merged_row) (hd : option (gmap string Q)) :
  let m := snd (calculate_portfolio_metrics df hd) in
  total_value m == 0 ->
  weighted_esg m = 0 /\ weighted_environmental m = 0 /\
  weighted_social m = 0 /\ weighted_governance m = 0.
Proof.
  unfold calculate_portfolio_metrics. cbn zeta.
  destruct (gt_b _ 0) eqn:G; simpl; intros Hz.
  - apply gt_b_true in G. exfalso. rewrite Hz in G. apply (Qlt_irrefl 0). exact G.
  - repeat split.
Qed.

(** ** C1: rows with a non-numeric price *)

Definition na_prices : list price_row :=
  [{| p_market := "BTCUSDT"; p_last_price := "N/A" |}].

Definition na_esg : list esg_row :=
  [{| e_market := "BTCUSDT"; e_name := "Bitcoin";
      e_esg_e := 50; e_esg_s := 50; e_esg_g := 50 |}].

(** C1 (counterexample). A ticker row whose last_price is "N/A" is coerced
    to NaN and still appears in the merge output, with a missing price. *)
Lemma missing_price_kept_cex :
  exists r, In r (merge_price_and_esg na_prices na_esg) /\
            last_price (m_asset r) = None.
Proof.
  eexists. split.
  - vm_compute. left. reflexivity.
  - reflexivity.
Qed.

(** C1 (amended). [merge_price_and_esg] is the merge with the coercion
    [to_numeric]; whatever value the coercion gives a price text, NaN
    ([None]) included, every merged row carries the coerced price of its
    ticker row, and every ticker row whose market has an ESG entry is in
    the output: a row with a non-numeric price is kept, not dropped. *)
Theorem merge_keeps_coerced_price :
  (forall prices esg, merge_price_and_esg prices esg = merge_with to_numeric prices esg) /\
  forall (coerce : string -> option Q) (prices : list price_row) (esg : list esg_row),
  (forall r, In r (merge_with coerce prices esg) ->
     exists p, In p prices /\ p_market p = market (m_asset r) /\
               last_price (m_asset r) = coerce (p_last_price p)) /\
  (forall p e, In p prices -> In e esg -> p_market p = e_market e ->
     exists r, In r (merge_with coerce prices esg) /\
               market (m_asset r) = p_market p /\ name (m_asset r) = e_name e /\
               last_price (m_asset r) = coerce (p_last_price p)).
Proof.
  split; [reflexivity|]. intros coerce prices esg. unfold merge_with. split.
  - intros r Hr. apply in_map_iff in Hr as (a & <- & Ha).
    apply in_flat_map in Ha as (pn & Hpn & Ha).
    apply in_map_iff in Hpn as (p & <- & Hp).
    apply in_map_iff in Ha as (e & <- & He).
    apply List.filter_In in He as [_ Heq].
    exists p. repeat split; auto.
  - intros p e Hp He Heq.
    exists (score_row (join_rows (coerce_row_with coerce p) e)).
    split; [|repeat split].
    apply in_map, in_flat_map. exists (coerce_row_with coerce p).
    split; [apply in_map; exact Hp|].
    apply in_map, List.filter_In. split; [exact He|].
    apply String.eqb_eq. exact Heq.
Qed.

(** ** C2: the insight generator on an empty frame *)

(** C2 (counterexample). On an empty frame no EmptyInputError is raised. *)
Lemma insights_empty_cex :
  ~ exists m, get_esg_insights [] =
              Raise {| exn_class := "EmptyInputError"; exn_msg := m |}.
Proof. intros (m & H). vm_compute in H. discriminate H. Qed.

(** C2 (amended). On an empty frame [get_esg_insights] raises the
    ValueError of the first [idxmax] lookup; it returns no insights. *)
Theorem insights_empty_raises :
  get_esg_insights [] =
  Raise {| exn_class := "ValueError";
           exn_msg := "attempt to get argmax of an empty sequence" |}.
Proof. reflexivity. Qed.

(** ** C9: frame of calculate_portfolio_metrics *)

Definition holdings_in_use (holdings_dict : option (gmap string Q)) : gmap string Q :=
  match holdings_dict with
  | None => default_holdings
  | Some h => h
  end.

Example default_holdings_five :
  default_holdings !! "BTCUSDT" = Some (1 # 2) /\
  default_holdings !! "ETHUSDT" = Some (6 # 5) /\
  default_holdings !! "ADAUSDT" = Some 100 /\
  default_holdings !! "MATICUSDT" = Some 500 /\
  default_holdings !! "SOLUSDT" = Some 10 /\
  default_holdings !! "XRPUSDT" = None.
Proof. vm_compute. repeat split. Qed.

(** C9. The valued frame has the input rows, in order and unchanged, each
    extended with Holding (the map's quantity, 0 when absent; the default
    map when none is given) and Value (USD) = Holding * last_price. *)
Theorem portfolio_frame (df : list merged_row) (holdings_dict : option (gmap string Q)) :
  let vdf := fst (calculate_portfolio_metrics df holdings_dict) in
  map v_row vdf = df /\
  Forall (fun v =>
    holding v = match holdings_in_use holdings_dict !! market (m_asset (v_row v)) with
                | Some q => q
                | None => 0
                end /\
    value_usd v = match last_price (m_asset (v_row v)) with
                  | Some p => Some (holding v * p)
                  | None => None
                  end) vdf.
Proof.
  cbn zeta. unfold calculate_portfolio_metrics. cbn zeta.
  destruct (if gt_b _ 0 then _ else _) as [[[? ?] ?] ?]. simpl. split.
  - rewrite map_map. simpl. apply map_id.
  - apply Forall_forall. intros v Hv. apply list_elem_of_In, in_map_iff in Hv as (r & <- & _).
    split; reflexivity.
Qed.

(** ** C3: the inner join on market *)

Definition merged_markets (out : list merged_row) : list string :=
  map (fun r => market (m_asset r)) out.

Lemma filter_key_absent (k : string) (esg : list esg_row) :
  ~ In k (map e_market esg) ->
  List.filter (fun e => String.eqb k (e_market e)) esg = [].
Proof.
  induction esg as [|e rest IH]; simpl; intros Hn; [reflexivity|].
  destruct (String.eqb k (e_market e)) eqn:E.
  - apply String.eqb_eq in E. exfalso. apply Hn. left. symmetry. exact E.
  - apply IH. intros Hi. apply Hn. right. exact Hi.
Qed.

(** With unique ESG markets, a ticker row meets at most one ESG row. *)
Lemma matches_unique (k : string) (esg : list esg_row) :
  List.NoDup (map e_market esg) ->
  map (fun _ => k) (List.filter (fun e => String.eqb k (e_market e)) esg) =
  if existsb (String.eqb k) (map e_market esg) then [k] else [].
Proof.
  induction esg as [|e rest IH]; simpl; intros Hnd; [reflexivity|].
  inversion Hnd as [|? ? Hnotin Hnd']; subst.
  destruct (String.eqb k (e_market e)) eqn:E; simpl.
  - apply String.eqb_eq in E. subst k.
    rewrite filter_key_absent by exact Hnotin. reflexivity.
  - apply IH. exact Hnd'.
Qed.

Lemma merged_markets_filter (prices : list price_row) (esg : list esg_row) :
  List.NoDup (map e_market esg) ->
  merged_markets (merge_price_and_esg prices esg) =
  List.filter (fun s => existsb (String.eqb s) (map e_market esg))
              (map p_market prices).
Proof.
  intros Hnd. unfold merged_markets, merge_price_and_esg, inner_merge.
  rewrite map_map. simpl.
  induction prices as [|p rest IH]; simpl; [reflexivity|].
  rewrite map_app, map_map. simpl.
  rewrite (matches_unique (p_market p) esg Hnd).
  destruct (existsb (String.eqb (p_market p)) (map e_market esg)); simpl;
    rewrite IH; reflexivity.
Qed.

Lemma existsb_eqb_In (s : string) (l : list string) :
  existsb (String.eqb s) l = true <-> In s l.
Proof.
  rewrite existsb_exists. split.
  - intros (x & Hx & E). apply String.eqb_eq in E. subst. exact Hx.
  - intros H. exists s. split; [exact H | apply String.eqb_refl].
Qed.

(** C3. With unique markets in each table, the merge output holds one row
    per market common to both tables and nothing else: a market is in the
    output iff it is in both inputs, no market repeats, the output has
    |P ∩ E| rows, and an empty input on either side gives an empty output. *)
Theorem merge_inner_join (prices : list price_row) (esg : list esg_row) :
  List.NoDup (map p_market prices) -> List.NoDup (map e_market esg) ->
  let out := merge_price_and_esg prices esg in
  (forall s, In s (merged_markets out) <->
             In s (map p_market prices) /\ In s (map e_market esg)) /\
  List.NoDup (merged_markets out) /\
  length out = length (List.filter (fun s => existsb (String.eqb s) (map e_market esg))
                                   (map p_market prices)) /\
  (prices = [] \/ esg = [] -> out = []).
Proof.
  intros Hp He. cbn zeta.
  pose proof (merged_markets_filter prices esg He) as Hm.
  assert (Hlen : length (merge_price_and_esg prices esg) =
                 length (merged_markets (merge_price_and_esg prices esg)))
    by (unfold merged_markets; rewrite length_map; reflexivity).
  split; [|split; [|split]].
  - intros s. rewrite Hm, filter_In, existsb_eqb_In. reflexivity.
  - rewrite Hm. apply List.NoDup_filter. exact Hp.
  - rewrite Hlen, Hm. reflexivity.
  - intros [-> | ->]; [reflexivity|].
    apply length_zero_iff_nil. rewrite Hlen, Hm. simpl. clear.
    induction (map p_market prices) as [|a l IHl]; simpl; [reflexivity | exact IHl].
Qed.

(** Witness of C3: the example scenario, with XRPUSDT dropped. *)
Lemma merge_inner_join_witness :
  List.NoDup (map p_market ex_prices) /\ List.NoDup (map e_market ex_esg) /\
  length (merge_price_and_esg ex_prices ex_esg) = 2%nat.
Proof.
  assert (Hp : List.NoDup (map p_market ex_prices)).
  { simpl. repeat constructor; simpl; intuition discriminate. }
  assert (He : List.NoDup (map e_market ex_esg)).
  { simpl. repeat constructor; simpl; intuition discriminate. }
  split; [exact Hp | split; [exact He |]].
  destruct (merge_inner_join ex_prices ex_esg Hp He) as (_ & _ & Hl & _).
  rewrite Hl. reflexivity.
Defined.

(** ** C7: the weighted metrics and their zero-total guard *)


(** Rows of the valued frame: a non-negative value, zero unless held. *)
Lemma valued_rows_nonneg (df : list merged_row) (hd : gmap string Q) :
  (forall k q, hd !! k = Some q -> 0 <= q) ->
  (forall r p, In r df -> last_price (m_asset r) = Some p -> 0 <= p) ->
  forall v x, In v (map (add_holding hd) df) -> value_usd v = Some x ->
  0 <= x /\ (x == 0 \/ 0 < holding v).
Proof.
  intros Hq Hp v x Hv Hx. apply in_map_iff in Hv as (r & <- & Hr).
  unfold add_holding in *. simpl in *.
  assert (Hh : 0 <= holding_of hd r).
  { unfold holding_of. destruct (hd !! market (m_asset r)) eqn:E.
    - apply (Hq _ _ E).
    - apply Qle_refl. }
  destruct (last_price (m_asset r)) as [p|] eqn:E; [|discriminate].
  injection Hx as <-. pose proof (Hp r p Hr E) as Hp0.
  split; [apply Qmult_le_0_compat; assumption|].
  destruct (Qlt_le_dec 0 (holding_of hd r)) as [Hlt|Hle]; [right; exact Hlt|].
  left. assert (H0 : holding_of hd r == 0) by lra.
  rewrite H0. apply Qmult_0_l.
Qed.

Definition one_btc : gmap string Q := list_to_map [("BTCUSDT", 1)].




(** ** C8: the insight generator *)

Section ArgBest.
(** [lt a b]: [b] is strictly better than [a]; [better x b] decides
    [lt b x]. *)
Variable better : Q -> Q -> bool.
Variable lt : Q -> Q -> Prop.
Hypothesis better_spec : forall x b, better x b = true <-> lt b x.
Hypothesis lt_irrefl : forall a, ~ lt a a.
Hypothesis lt_trans : forall a b c, lt a b -> lt b c -> lt a c.
Hypothesis le_lt_trans : forall a b c, ~ lt b a -> lt b c -> lt a c.

Lemma arg_best_from_inv (rest pre : list Q) (bi : nat) (b : Q) :
  (bi < length pre)%nat -> nth bi pre 0 = b ->
  (forall j, (j < length pre)%nat -> ~ lt b (nth j pre 0)) ->
  (forall j, (j < bi)%nat -> lt (nth j pre 0) b) ->
  let i := arg_best_from better rest (length pre) bi b in
  let xs := pre ++ rest in
  (i < length xs)%nat /\
  (forall j, (j < length xs)%nat -> ~ lt (nth i xs 0) (nth j xs 0)) /\
  (forall j, (j < i)%nat -> lt (nth j xs 0) (nth i xs 0)).
Proof.
  revert pre bi b.
  induction rest as [|x rest IH]; intros pre bi b Hbi Hb Hall Hbefore; cbn zeta.
  - simpl. rewrite app_nil_r. subst b. split; [exact Hbi | split; assumption].
  - replace (pre ++ x :: rest) with ((pre ++ [x]) ++ rest)
      by (rewrite <- app_assoc; reflexivity).
    assert (Hlen : length (pre ++ [x]) = S (length pre))
      by (rewrite length_app; simpl; lia).
    simpl arg_best_from.
    destruct (better x b) eqn:Bx.
    + apply better_spec in Bx.
      rewrite <- Hlen. apply IH.
      * lia.
      * rewrite app_nth2 by lia. rewrite Nat.sub_diag. reflexivity.
      * intros j Hj. rewrite Hlen in Hj.
        destruct (Nat.eq_dec j (length pre)) as [-> | Hne].
        -- rewrite app_nth2 by lia. rewrite Nat.sub_diag. apply lt_irrefl.
        -- rewrite app_nth1 by lia. intros Hc.
           apply (Hall j ltac:(lia)). exact (lt_trans _ _ _ Bx Hc).
      * intros j Hj. rewrite app_nth1 by lia.
        apply (le_lt_trans _ b); [apply Hall; lia | exact Bx].
    + assert (Nx : ~ lt b x) by (intros Hc; apply better_spec in Hc; congruence).
      rewrite <- Hlen. apply IH.
      * rewrite Hlen. lia.
      * rewrite app_nth1 by lia. exact Hb.
      * intros j Hj. rewrite Hlen in Hj.
        destruct (Nat.eq_dec j (length pre)) as [-> | Hne].
        -- rewrite app_nth2 by lia. rewrite Nat.sub_diag. exact Nx.
        -- rewrite app_nth1 by lia. apply Hall. lia.
      * intros j Hj. rewrite app_nth1 by lia. apply Hbefore. exact Hj.
Qed.

Lemma arg_best_spec (msg : string) (xs : list Q) :
  xs <> [] ->
  exists i, arg_best better msg xs = Ok i /\ (i < length xs)%nat /\
    (forall j, (j < length xs)%nat -> ~ lt (nth i xs 0) (nth j xs 0)) /\
    (forall j, (j < i)%nat -> lt (nth j xs 0) (nth i xs 0)).
Proof.
  destruct xs as [|x rest]; intros Hne; [congruence|].
  eexists. split; [reflexivity|].
  apply (arg_best_from_inv rest [x] 0 x); simpl.
  - lia.
  - reflexivity.
  - intros j Hj. replace j with 0%nat by lia. apply lt_irrefl.
  - intros j Hj. lia.
Qed.
End ArgBest.

Lemma idxmax_spec (xs : list Q) :
  xs <> [] ->
  exists i, idxmax xs = Ok i /\ (i < length xs)%nat /\
    (forall j, (j < length xs)%nat -> nth j xs 0 <= nth i xs 0) /\
    (forall j, (j < i)%nat -> nth j xs 0 < nth i xs 0).
Proof.
  intros Hne.
  destruct (arg_best_spec gt_b Qlt (fun x b => gt_b_true x b)
              Qlt_irrefl Qlt_trans
              (fun a b c H1 H2 => Qle_lt_trans _ _ _ (Qnot_lt_le _ _ H1) H2)
              "attempt to get argmax of an empty sequence" xs Hne)
    as (i & Hi & Hlt & Hall & Hbef).
  exists i. split; [exact Hi | split; [exact Hlt | split; [|exact Hbef]]].
  intros j Hj. apply Qnot_lt_le. apply Hall. exact Hj.
Qed.

Lemma idxmin_spec (xs : list Q) :
  xs <> [] ->
  exists i, idxmin xs = Ok i /\ (i < length xs)%nat /\
    (forall j, (j < length xs)%nat -> nth i xs 0 <= nth j xs 0) /\
    (forall j, (j < i)%nat -> nth i xs 0 < nth j xs 0).
Proof.
  intros Hne.
  destruct (arg_best_spec (fun x b => gt_b b x) (fun a b => b < a)
              (fun x b => gt_b_true b x)
              Qlt_irrefl (fun a b c H1 H2 => Qlt_trans _ _ _ H2 H1)
              (fun a b c H1 H2 => Qlt_le_trans _ _ _ H2 (Qnot_lt_le _ _ H1))
              "attempt to get argmin of an empty sequence" xs Hne)
    as (i & Hi & Hlt & Hall & Hbef).
  exists i. split; [exact Hi | split; [exact Hlt | split; [|exact Hbef]]].
  intros j Hj. apply Qnot_lt_le. apply Hall. exact Hj.
Qed.

(** Row [i] holds the first maximum of column [f]. *)
Definition first_max_at (f : valued_row -> Q) (df : list valued_row) (i : nat) : Prop :=
  (i < length df)%nat /\
  (forall j, (j < length df)%nat -> f (loc df j) <= f (loc df i)) /\
  (forall j, (j < i)%nat -> f (loc df j) < f (loc df i)).

(** Row [i] holds the first minimum of column [f]. *)
Definition first_min_at (f : valued_row -> Q) (df : list valued_row) (i : nat) : Prop :=
  (i < length df)%nat /\
  (forall j, (j < length df)%nat -> f (loc df i) <= f (loc df j)) /\
  (forall j, (j < i)%nat -> f (loc df i) < f (loc df j)).

Lemma nth_map_col (f : valued_row -> Q) (df : list valued_row) (j : nat) :
  f dummy_row = 0 -> nth j (map f df) 0 = f (loc df j).
Proof. intros Hf. rewrite <- Hf. unfold loc. apply map_nth. Qed.

Lemma map_ne {A B} (f : A -> B) (l : list A) : l <> [] -> map f l <> [].
Proof. destruct l; simpl; congruence. Qed.

(** C8. On a non-empty frame [get_esg_insights] returns exactly four
    insights, in the order best ESG, worst ESG, count of scores >= 70 out
    of the row count, environmental leader; best and worst are the first
    rows (in frame order) with the maximal and minimal ESG Score, the
    leader the first row with the maximal esg_e. *)
Theorem insights_four (df : list valued_row) :
  df <> [] ->
  exists ib iw ie,
    first_max_at col_score df ib /\ first_min_at col_score df iw /\
    first_max_at col_e df ie /\
    get_esg_insights df =
      Ok [Highest (row_name (loc df ib)) (col_score (loc df ib));
          Lowest (row_name (loc df iw)) (col_score (loc df iw));
          HighCount (length (List.filter (fun v => Qle_bool 70 (col_score v)) df))
                    (length df);
          EnvLeader (row_name (loc df ie)) (col_e (loc df ie))].
Proof.
  intros Hne.
  destruct (idxmax_spec (map col_score df) (map_ne _ _ Hne))
    as (ib & Hb & Hbl & Hball & Hbbef).
  destruct (idxmin_spec (map col_score df) (map_ne _ _ Hne))
    as (iw & Hw & Hwl & Hwall & Hwbef).
  destruct (idxmax_spec (map col_e df) (map_ne _ _ Hne))
    as (ie & He & Hel & Heall & Hebef).
  rewrite length_map in Hbl, Hwl, Hel.
  rewrite length_map in Hball, Hwall, Heall.
  exists ib, iw, ie.
  split; [|split; [|split]].
  - split; [exact Hbl | split]; intros j Hj.
    + pose proof (Hball j Hj) as H. rewrite !nth_map_col in H by reflexivity. exact H.
    + pose proof (Hbbef j Hj) as H. rewrite !nth_map_col in H by reflexivity. exact H.
  - split; [exact Hwl | split]; intros j Hj.
    + pose proof (Hwall j Hj) as H. rewrite !nth_map_col in H by reflexivity. exact H.
    + pose proof (Hwbef j Hj) as H. rewrite !nth_map_col in H by reflexivity. exact H.
  - split; [exact Hel | split]; intros j Hj.
    + pose proof (Heall j Hj) as H. rewrite !nth_map_col in H by reflexivity. exact H.
    + pose proof (Hebef j Hj) as H. rewrite !nth_map_col in H by reflexivity. exact H.
  - unfold get_esg_insights. rewrite Hb, Hw, He. reflexivity.
Qed.

(** Witness of C8: the valued frame of the example scenario. *)
Lemma insights_four_witness :
  fst (calculate_portfolio_metrics (merge_price_and_esg ex_prices ex_esg)
                                   (Some ex_holdings)) <> [] /\
  exists ib iw ie,
    first_max_at col_score (fst (calculate_portfolio_metrics
      (merge_price_and_esg ex_prices ex_esg) (Some ex_holdings))) ib /\
    first_min_at col_score (fst (calculate_portfolio_metrics
      (merge_price_and_esg ex_prices ex_esg) (Some ex_holdings))) iw /\
    first_max_at col_e (fst (calculate_portfolio_metrics
      (merge_price_and_esg ex_prices ex_esg) (Some ex_holdings))) ie.
Proof.
  assert (Hne : fst (calculate_portfolio_metrics (merge_price_and_esg ex_prices ex_esg)
                                                 (Some ex_holdings)) <> []).
  { vm_compute. discriminate. }
  split; [exact Hne|].
  destruct (insights_four _ Hne) as (ib & iw & ie & H1 & H2 & H3 & _).
  exists ib, iw, ie. split; [exact H1 | split; [exact H2 | exact H3]].
Defined.

(** Ties: two rows with the same top score; the first one is reported. *)
Example insights_tie_first :
  let r (nm : string) (e : Q) :=
    {| v_row := {| m_asset := {| market := nm; last_price := Some 1; name := nm;
                                 esg_e := e; esg_s := 60; esg_g := 60 |};
                   esg_score := 60; esg_rating := "B+ (Good)" |};
       holding := 0; value_usd := Some 0 |} in
  get_esg_insights [r "A" 60; r "B" 60] =
    Ok [Highest "A" 60; Lowest "A" 60; HighCount 0 2; EnvLeader "A" 60].
Proof. vm_compute. reflexivity. Qed.

(** ** Witnesses of the theorems with hypotheses *)

Definition hd_price (l : list price_row) : price_row :=
  match l with
  | p :: _ => p
  | [] => {| p_market := ""; p_last_price := "" |}
  end.

Definition hd_esg_row (l : list esg_row) : esg_row :=
  match l with
  | e :: _ => e
  | [] => {| e_market := ""; e_name := ""; e_esg_e := 0; e_esg_s := 0; e_esg_g := 0 |}
  end.

(** Witness of C6: scores 50 and 75. *)
Lemma categorize_monotone_witness :
  (50 : Q) < 75 /\
  (rating_rank (categorize_esg_score 50) <= rating_rank (categorize_esg_score 75))%nat.
Proof.
  assert (H : (50 : Q) < 75) by (vm_compute; reflexivity).
  split; [exact H | exact (categorize_monotone 75 50 H)].
Defined.

(** Witness of C4: the held asset with a missing price gives a zero total. *)
Lemma zero_total_metrics_witness :
  total_value (snd (calculate_portfolio_metrics (merge_price_and_esg na_prices na_esg)
                                                (Some one_btc))) == 0 /\
  weighted_esg (snd (calculate_portfolio_metrics (merge_price_and_esg na_prices na_esg)
                                                 (Some one_btc))) = 0.
Proof.
  assert (H : total_value (snd (calculate_portfolio_metrics
                (merge_price_and_esg na_prices na_esg) (Some one_btc))) == 0)
    by (vm_compute; reflexivity).
  split; [exact H | exact (proj1 (zero_total_metrics _ _ H))].
Defined.

(** Witness of C5: the ETHUSDT row of the example scenario. *)
Lemma merged_score_and_rating_witness :
  In (score_row (join_rows (coerce_row (nth 1 ex_prices (hd_price ex_prices)))
                           (nth 1 ex_esg (hd_esg_row ex_esg))))
     (merge_price_and_esg ex_prices ex_esg) /\
  esg_rating (score_row (join_rows (coerce_row (nth 1 ex_prices (hd_price ex_prices)))
                                   (nth 1 ex_esg (hd_esg_row ex_esg)))) = "A (Very Good)".
Proof.
  assert (H : In (score_row (join_rows (coerce_row (nth 1 ex_prices (hd_price ex_prices)))
                                       (nth 1 ex_esg (hd_esg_row ex_esg))))
                 (merge_price_and_esg ex_prices ex_esg))
    by (vm_compute; right; left; reflexivity).
  split; [exact H|].
  rewrite (proj2 (merged_score_and_rating _ _ _ H)). vm_compute. reflexivity.
Defined.

(** * Further properties of the pipeline and of its callers in app.py *)

(** ** Merge engine *)

(** Without any uniqueness assumption, each ticker row produces one merged
    row per ESG row of the same market. *)
Theorem merge_length_general (prices : list price_row) (esg : list esg_row) :
  length (merge_price_and_esg prices esg) =
  list_sum (map (fun p => length (List.filter
                   (fun e => String.eqb (p_market p) (e_market e)) esg)) prices).
Proof.
  unfold merge_price_and_esg, inner_merge. rewrite length_map.
  induction prices as [|p rest IH]; simpl; [reflexivity|].
  rewrite length_app, length_map, IH. reflexivity.
Qed.

(** With unique ESG markets, the markets of the output are the ticker's
    markets in ticker order, kept when the ESG table has them (repeated
    ticker markets stay repeated). *)
Theorem merge_markets_in_ticker_order (prices : list price_row) (esg : list esg_row) :
  List.NoDup (map e_market esg) ->
  map (fun r => market (m_asset r)) (merge_price_and_esg prices esg) =
  List.filter (fun s => existsb (String.eqb s) (map e_market esg)) (map p_market prices).
Proof. intros H. exact (merged_markets_filter prices esg H). Qed.

Lemma merge_markets_in_ticker_order_witness :
  List.NoDup (map e_market ex_esg) /\
  map (fun r => market (m_asset r)) (merge_price_and_esg ex_prices ex_esg) =
  ["BTCUSDT"; "ETHUSDT"].
Proof.
  assert (He : List.NoDup (map e_market ex_esg)).
  { simpl. repeat constructor; simpl; intuition discriminate. }
  split; [exact He|].
  rewrite (merge_markets_in_ticker_order ex_prices ex_esg He). reflexivity.
Defined.

(** The rank of a score's label (C=0 ... A+=5) is the number of the
    thresholds 40, 50, 60, 70, 80 the score reaches. *)
Theorem rating_rank_counts_thresholds (s : Q) :
  rating_rank (categorize_esg_score s) =
  length (List.filter (fun t => Qle_bool t s) [40; 50; 60; 70; 80]).
Proof.
  unfold categorize_esg_score, ge_b. simpl List.filter.
  destruct (Qle_bool 80 s) eqn:H80, (Qle_bool 70 s) eqn:H70, (Qle_bool 60 s) eqn:H60,
    (Qle_bool 50 s) eqn:H50, (Qle_bool 40 s) eqn:H40;
    try reflexivity;
    exfalso;
    repeat match goal with
    | H : Qle_bool _ _ = true |- _ => apply Qle_bool_iff in H
    | H : Qle_bool ?a ?b = false |- _ =>
        let H' := fresh in
        assert (H' : b < a) by (apply ge_b_false; exact H); clear H
    end; lra.
Qed.

(** ** Portfolio calculator *)

(** [holdings_df = df_with_portfolio[df_with_portfolio["Holding"] > 0]]
    (app.py): the subview of the held assets. *)
Definition holdings_view (vdf : list valued_row) : list valued_row :=
  List.filter (fun v => gt_b (holding v) 0) vdf.

Lemma NoDup_map_filter {A B} (f : A -> B) (p : A -> bool) (l : list A) :
  List.NoDup (map f l) -> List.NoDup (map f (List.filter p l)).
Proof.
  induction l as [|a rest IH]; simpl; intros Hnd; [constructor|].
  inversion Hnd as [|? ? Hn Hnd']; subst.
  destruct (p a); simpl; [constructor|]; auto.
  intros Hin. apply Hn. apply in_map_iff in Hin as (b & Hb & Hbin).
  apply filter_In in Hbin as [Hbin _]. rewrite <- Hb. apply in_map. exact Hbin.
Qed.

(** With unique markets in both tables, the number of assets held is at
    most the number of entries of the holdings map in use (at most 5 with
    the default map). *)
Theorem num_holdings_le_map_size (prices : list price_row) (esg : list esg_row)
  (holdings_dict : option (gmap string Q)) :
  List.NoDup (map p_market prices) -> List.NoDup (map e_market esg) ->
  (num_holdings (snd (calculate_portfolio_metrics (merge_price_and_esg prices esg)
                                                  holdings_dict))
   <= size (holdings_in_use holdings_dict))%nat.
Proof.
  intros Hp He. unfold calculate_portfolio_metrics.
  fold (holdings_in_use holdings_dict).
  set (hd := holdings_in_use holdings_dict). cbn zeta.
  destruct (if gt_b _ 0 then _ else _) as [[[? ?] ?] ?]. simpl.
  set (held := List.filter (fun v => gt_b (holding v) 0)
                 (map (add_holding hd) (merge_price_and_esg prices esg))).
  set (ks := map (fun v => market (m_asset (v_row v))) held).
  assert (Hnd : List.NoDup ks).
  { unfold ks, held. apply NoDup_map_filter. rewrite map_map. simpl.
    pose proof (merged_markets_filter prices esg He) as Hm. unfold merged_markets in Hm.
    rewrite Hm. apply List.NoDup_filter. exact Hp. }
  assert (Hsub : ks ⊆ (map_to_list hd).*1).
  { intros s Hs. apply list_elem_of_In in Hs. unfold ks in Hs.
    apply in_map_iff in Hs as (v & <- & Hv). unfold held in Hv.
    apply filter_In in Hv as [Hv Hpos]. apply gt_b_true in Hpos.
    apply in_map_iff in Hv as (r & <- & _). simpl in *.
    unfold holding_of in Hpos.
    destruct (hd !! market (m_asset r)) as [hq|] eqn:E.
    - apply elem_of_map_to_list in E.
      apply (list_elem_of_fmap_2 fst) in E. exact E.
    - exfalso. apply (Qlt_irrefl 0). exact Hpos. }
  apply NoDup_ListNoDup in Hnd.
  pose proof (submseteq_length _ _ (NoDup_submseteq ks _ Hnd Hsub)) as Hl.
  rewrite length_fmap, length_map_to_list in Hl.
  unfold ks in Hl. rewrite length_map in Hl. exact Hl.
Qed.

Lemma num_holdings_le_map_size_witness :
  List.NoDup (map p_market ex_prices) /\ List.NoDup (map e_market ex_esg) /\
  (num_holdings (snd (calculate_portfolio_metrics (merge_price_and_esg ex_prices ex_esg)
                                                  None))
   <= size (holdings_in_use None))%nat.
Proof.
  assert (Hp : List.NoDup (map p_market ex_prices)).
  { simpl. repeat constructor; simpl; intuition discriminate. }
  assert (He : List.NoDup (map e_market ex_esg)).
  { simpl. repeat constructor; simpl; intuition discriminate. }
  split; [exact Hp | split; [exact He |]].
  exact (num_holdings_le_map_size ex_prices ex_esg None Hp He).
Defined.

(** Rows of the valued frame that are not held add nothing to a sum. *)
Lemma unheld_row_zero (hd : gmap string Q) (r : merged_row) (x : Q) :
  (forall k q, hd !! k = Some q -> 0 <= q) ->
  gt_b (holding (add_holding hd r)) 0 = false ->
  value_usd (add_holding hd r) = Some x -> x == 0.
Proof.
  intros Hq Hn Hx. apply gt_b_false in Hn. simpl in *.
  assert (Hh : 0 <= holding_of hd r).
  { unfold holding_of. destruct (hd !! market (m_asset r)) eqn:E.
    - apply (Hq _ _ E).
    - apply Qle_refl. }
  destruct (last_price (m_asset r)) as [p|]; [|discriminate].
  injection Hx as <-. assert (H0 : holding_of hd r == 0) by lra.
  rewrite H0. apply Qmult_0_l.
Qed.

Lemma ex_holdings_nonneg :
  forall k q, holdings_in_use (Some ex_holdings) !! k = Some q -> 0 <= q.
Proof.
  intros k q H. unfold holdings_in_use, ex_holdings in H.
  rewrite !list_to_map_cons, list_to_map_nil in H.
  apply lookup_insert_Some in H as [[_ <-] | [_ H]]; [lra|].
  apply lookup_insert_Some in H as [[_ <-] | [_ H]]; [lra|].
  rewrite lookup_empty in H. discriminate.
Qed.

Lemma pd_sum_pos (l : list valued_row) :
  0 < pd_sum (map value_usd l) ->
  exists v x, In v l /\ value_usd v = Some x /\ 0 < x.
Proof.
  induction l as [|v rest IH]; cbn [map pd_sum]; intros Hpos.
  - exfalso. apply (Qlt_irrefl 0). exact Hpos.
  - destruct (value_usd v) as [x|] eqn:Ex.
    + destruct (Qlt_le_dec 0 x) as [Hx | Hx].
      * exists v, x. split; [left; reflexivity | split; assumption].
      * destruct IH as (w & y & Hw & Ey & Hy); [lra|].
        exists w, y. split; [right; exact Hw | split; assumption].
    + destruct (IH Hpos) as (w & y & Hw & Ey & Hy).
      exists w, y. split; [right; exact Hw | split; assumption].
Qed.

(** The "Largest Position" tile of app.py runs [idxmax] on the held subview
    only when the Portfolio Value is positive: with a non-negative holdings
    map that subview then holds a row of positive value, so it is not
    empty. *)
Theorem positive_total_has_held_row (df : list merged_row)
  (holdings_dict : option (gmap string Q)) :
  (forall k q, holdings_in_use holdings_dict !! k = Some q -> 0 <= q) ->
  0 < total_value (snd (calculate_portfolio_metrics df holdings_dict)) ->
  exists v x, In v (holdings_view (fst (calculate_portfolio_metrics df holdings_dict))) /\
              value_usd v = Some x /\ 0 < x.
Proof.
  intros Hq. unfold calculate_portfolio_metrics.
  fold (holdings_in_use holdings_dict).
  set (hd := holdings_in_use holdings_dict) in *. cbn zeta.
  destruct (if gt_b _ 0 then _ else _) as [[[? ?] ?] ?]. simpl. intros Hpos.
  destruct (pd_sum_pos _ Hpos) as (v & x & Hv & Ex & Hx).
  exists v, x. split; [|split; assumption].
  unfold holdings_view. apply filter_In. split; [exact Hv|].
  destruct (gt_b (holding v) 0) eqn:G; [reflexivity|].
  apply in_map_iff in Hv as (r & <- & _).
  pose proof (unheld_row_zero hd r x Hq G Ex) as H0. exfalso. lra.
Qed.

Lemma positive_total_has_held_row_witness :
  (forall k q, holdings_in_use (Some ex_holdings) !! k = Some q -> 0 <= q) /\
  0 < total_value (snd (calculate_portfolio_metrics (merge_price_and_esg ex_prices ex_esg)
                                                    (Some ex_holdings))) /\
  holdings_view (fst (calculate_portfolio_metrics (merge_price_and_esg ex_prices ex_esg)
                                                  (Some ex_holdings))) <> [].
Proof.
  assert (Ht : 0 < total_value (snd (calculate_portfolio_metrics
                 (merge_price_and_esg ex_prices ex_esg) (Some ex_holdings))))
    by (vm_compute; reflexivity).
  split; [exact ex_holdings_nonneg | split; [exact Ht|]].
  destruct (positive_total_has_held_row _ _ ex_holdings_nonneg Ht) as (v & x & Hv & _).
  intros He. rewrite He in Hv. exact Hv.
Defined.

(** With non-negative holdings and prices, the Portfolio Value is
    non-negative. *)
Theorem total_value_nonneg (df : list merged_row)
  (holdings_dict : option (gmap string Q)) :
  (forall k q, holdings_in_use holdings_dict !! k = Some q -> 0 <= q) ->
  (forall r p, In r df -> last_price (m_asset r) = Some p -> 0 <= p) ->
  0 <= total_value (snd (calculate_portfolio_metrics df holdings_dict)).
Proof.
  intros Hq Hp. unfold calculate_portfolio_metrics.
  fold (holdings_in_use holdings_dict).
  set (hd := holdings_in_use holdings_dict) in *. cbn zeta.
  destruct (if gt_b _ 0 then _ else _) as [[[? ?] ?] ?]. simpl.
  pose proof (valued_rows_nonneg df hd Hq Hp) as Hrow.
  induction (map (add_holding hd) df) as [|v rest IH]; cbn [map pd_sum].
  - apply Qle_refl.
  - assert (IH' : 0 <= pd_sum (map value_usd rest))
      by (apply IH; intros w x Hw; apply Hrow; right; exact Hw).
    destruct (value_usd v) as [x|] eqn:Ex; [|exact IH'].
    destruct (Hrow v x (or_introl eq_refl) Ex) as [Hx _]. lra.
Qed.

Lemma total_value_nonneg_witness :
  (forall k q, holdings_in_use (Some ex_holdings) !! k = Some q -> 0 <= q) /\
  (forall r p, In r (merge_price_and_esg ex_prices ex_esg) ->
     last_price (m_asset r) = Some p -> 0 <= p) /\
  0 <= total_value (snd (calculate_portfolio_metrics (merge_price_and_esg ex_prices ex_esg)
                                                     (Some ex_holdings))).
Proof.
  assert (Hp : forall r p, In r (merge_price_and_esg ex_prices ex_esg) ->
                 last_price (m_asset r) = Some p -> 0 <= p).
  { intros r p Hr E. vm_compute in Hr.
    destruct Hr as [<- | [<- | []]]; injection E as <-;
      apply Qle_bool_imp_le; vm_compute; reflexivity. }
  split; [exact ex_holdings_nonneg | split; [exact Hp|]].
  exact (total_value_nonneg _ _ ex_holdings_nonneg Hp).
Defined.

(** ** Insight generator as app.py calls it *)

(** app.py calls [get_esg_insights(df_with_portfolio)] only when the merged
    frame is not empty; there it never raises and gives four insights. *)
Theorem app_insights_never_raise (df : list merged_row)
  (holdings_dict : option (gmap string Q)) :
  df <> [] ->
  exists l, get_esg_insights (fst (calculate_portfolio_metrics df holdings_dict)) = Ok l /\
            length l = 4%nat.
Proof.
  intros Hne.
  set (vdf := fst (calculate_portfolio_metrics df holdings_dict)).
  assert (Hv : vdf <> []).
  { unfold vdf, calculate_portfolio_metrics. cbn zeta.
    destruct (if gt_b _ 0 then _ else _) as [[[? ?] ?] ?]. simpl.
    apply map_ne. exact Hne. }
  destruct (idxmax_spec (map col_score vdf) (map_ne _ _ Hv)) as (ib & Hb & _).
  destruct (idxmin_spec (map col_score vdf) (map_ne _ _ Hv)) as (iw & Hw & _).
  destruct (idxmax_spec (map col_e vdf) (map_ne _ _ Hv)) as (ie & He & _).
  unfold get_esg_insights. rewrite Hb, Hw, He.
  eexists. split; reflexivity.
Qed.

Lemma app_insights_never_raise_witness :
  merge_price_and_esg ex_prices ex_esg <> [] /\
  exists l, get_esg_insights (fst (calculate_portfolio_metrics
              (merge_price_and_esg ex_prices ex_esg) None)) = Ok l /\ length l = 4%nat.
Proof.
  assert (H : merge_price_and_esg ex_prices ex_esg <> []) by (vm_compute; discriminate).
  split; [exact H | exact (app_insights_never_raise _ None H)].
Defined.

(** A label of the A band: "A+ (Excellent)" or "A (Very Good)". *)
Definition is_a_rating (lbl : string) : bool :=
  String.eqb lbl "A+ (Excellent)" || String.eqb lbl "A (Very Good)".

Lemma ge70_is_a_rating (s : Q) : ge_b s 70 = is_a_rating (categorize_esg_score s).
Proof.
  unfold categorize_esg_score.
  destruct (ge_b s 80) eqn:H80, (ge_b s 70) eqn:H70, (ge_b s 60) eqn:H60,
    (ge_b s 50) eqn:H50, (ge_b s 40) eqn:H40; q_facts;
    first [reflexivity | exfalso; lra].
Qed.

(** On a valued merged frame, the count of the third insight (scores
    >= 70) is the number of rows whose ESG Rating is in the A band, out of
    the number of rows. *)
Theorem high_count_is_a_band (prices : list price_row) (esg : list esg_row)
  (holdings_dict : option (gmap string Q)) (l : list insight) (k n : nat) :
  let vdf := fst (calculate_portfolio_metrics (merge_price_and_esg prices esg)
                                              holdings_dict) in
  get_esg_insights vdf = Ok l -> In (HighCount k n) l ->
  k = length (List.filter (fun v => is_a_rating (esg_rating (v_row v))) vdf) /\
  n = length vdf.
Proof.
  cbn zeta. set (vdf := fst _).
  assert (Hrow : forall v, In v vdf ->
            ge_b (col_score v) 70 = is_a_rating (esg_rating (v_row v))).
  { intros v Hv. unfold vdf, calculate_portfolio_metrics in Hv. cbn zeta in Hv.
    destruct (if gt_b _ 0 then _ else _) as [[[? ?] ?] ?]. simpl in Hv.
    apply in_map_iff in Hv as (r & <- & Hr).
    apply in_merge in Hr as (p & e & _ & _ & _ & ->).
    apply ge70_is_a_rating. }
  unfold get_esg_insights.
  destruct (idxmax (map col_score vdf)); [|discriminate].
  destruct (idxmin (map col_score vdf)); [|discriminate].
  destruct (idxmax (map col_e vdf)); [|discriminate].
  intros Hl Hin. injection Hl as <-.
  destruct Hin as [Hc | [Hc | [Hc | [Hc | []]]]]; try discriminate.
  injection Hc as <- <-. split; [|reflexivity].
  apply f_equal. apply filter_ext_in. exact Hrow.
Qed.

Definition ex_valued : list valued_row :=
  fst (calculate_portfolio_metrics (merge_price_and_esg ex_prices ex_esg) (Some ex_holdings)).

Lemma high_count_is_a_band_witness :
  exists l, get_esg_insights ex_valued = Ok l /\ In (HighCount 1 2) l /\
    1%nat = length (List.filter (fun v => is_a_rating (esg_rating (v_row v))) ex_valued).
Proof.
  destruct (get_esg_insights ex_valued) as [l|e] eqn:E.
  - assert (Hin : In (HighCount 1 2) l).
    { vm_compute in E. injection E as <-. right. right. left. reflexivity. }
    exists l. split; [reflexivity | split; [exact Hin|]].
    exact (proj1 (high_count_is_a_band ex_prices ex_esg (Some ex_holdings) l 1 2 E Hin)).
  - vm_compute in E. discriminate E.
Defined.

(** ** Holdings chosen by the sidebar of app.py *)

(** [custom_holdings]: the five number inputs when "Use Custom Portfolio"
    is ticked, else [None] (the default map of [calculate_portfolio_metrics]). *)
Definition app_holdings (use_custom_portfolio : bool)
  (btc eth ada matic sol : Q) : option (gmap string Q) :=
  if use_custom_portfolio then
    Some (list_to_map [("BTCUSDT", btc); ("ETHUSDT", eth); ("ADAUSDT", ada);
                       ("MATICUSDT", matic); ("SOLUSDT", sol)])
  else None.

Definition five_symbols : list string :=
  ["BTCUSDT"; "ETHUSDT"; "ADAUSDT"; "MATICUSDT"; "SOLUSDT"].

Lemma lookup_five (a b c d e : Q) (k : string) (q : Q) :
  (list_to_map [("BTCUSDT", a); ("ETHUSDT", b); ("ADAUSDT", c);
                ("MATICUSDT", d); ("SOLUSDT", e)] : gmap string Q) !! k = Some q ->
  In k five_symbols /\ (q = a \/ q = b \/ q = c \/ q = d \/ q = e).
Proof.
  rewrite !list_to_map_cons, list_to_map_nil.
  intros H.
  repeat (apply lookup_insert_Some in H as [[<- <-] | [_ H]];
          [split; [simpl; tauto | tauto] |]).
  rewrite lookup_empty in H. discriminate.
Qed.

(** With the sidebar's inputs (min_value=0.0), the holdings map in use,
    custom or default, has only the five sidebar symbols as keys and only
    non-negative quantities, as the weighted-average bounds require. *)
Theorem app_holdings_nonneg (use_custom_portfolio : bool) (btc eth ada matic sol : Q) :
  0 <= btc -> 0 <= eth -> 0 <= ada -> 0 <= matic -> 0 <= sol ->
  forall k q,
    holdings_in_use (app_holdings use_custom_portfolio btc eth ada matic sol) !! k = Some q ->
    In k five_symbols /\ 0 <= q.
Proof.
  intros H1 H2 H3 H4 H5 k q H.
  destruct use_custom_portfolio; simpl in H.
  - apply lookup_five in H as [Hk Hq]. split; [exact Hk|].
    destruct Hq as [-> | [-> | [-> | [-> | ->]]]]; assumption.
  - unfold default_holdings in H. apply lookup_five in H as [Hk Hq].
    split; [exact Hk|].
    destruct Hq as [-> | [-> | [-> | [-> | ->]]]];
      apply Qle_bool_imp_le; vm_compute; reflexivity.
Qed.

Lemma app_holdings_nonneg_witness :
  (0 : Q) <= 0 /\ (0 : Q) <= 1 /\
  (forall k q, holdings_in_use (app_holdings true 0 1 0 1 0) !! k = Some q ->
     In k five_symbols /\ 0 <= q).
Proof.
  assert (H0 : (0 : Q) <= 0) by apply Qle_refl.
  assert (H1 : (0 : Q) <= 1) by (apply Qle_bool_imp_le; reflexivity).
  split; [exact H0 | split; [exact H1|]].
  exact (app_holdings_nonneg true 0 1 0 1 0 H0 H1 H0 H1 H0).
Defined.

(** ** ESG leaderboard of app.py: [df_with_portfolio.nlargest(5, "ESG Score")] *)

(** Insertion into a list of rows ordered by decreasing ESG Score; a row
    goes before the rows whose score does not exceed its own, so that rows
    earlier in the frame come first among equal scores (keep='first'). *)
Fixpoint insert_desc (v : valued_row) (l : list valued_row) : list valued_row :=
  match l with
  | [] => [v]
  | w :: rest =>
      if ge_b (col_score v) (col_score w) then v :: l else w :: insert_desc v rest
  end.

Fixpoint sort_desc (l : list valued_row) : list valued_row :=
  match l with
  | [] => []
  | v :: rest => insert_desc v (sort_desc rest)
  end.

(** [DataFrame.nlargest(n, "ESG Score")] *)
Definition nlargest (n : nat) (df : list valued_row) : list valued_row :=
  firstn n (sort_desc df).

Definition score_desc (a b : valued_row) : Prop := col_score b <= col_score a.

Lemma insert_desc_perm (v : valued_row) (l : list valued_row) :
  Permutation (insert_desc v l) (v :: l).
Proof.
  induction l as [|w rest IH]; simpl; [reflexivity|].
  destruct (ge_b (col_score v) (col_score w)); [reflexivity|].
  rewrite IH. apply perm_swap.
Qed.

Lemma sort_desc_perm (l : list valued_row) : Permutation (sort_desc l) l.
Proof.
  induction l as [|v rest IH]; simpl; [reflexivity|].
  rewrite insert_desc_perm, IH. reflexivity.
Qed.

Lemma insert_desc_sorted (v : valued_row) (l : list valued_row) :
  StronglySorted score_desc l -> StronglySorted score_desc (insert_desc v l).
Proof.
  induction l as [|w rest IH]; simpl; intros Hs.
  - repeat constructor.
  - apply StronglySorted_inv in Hs as [Hr Hf].
    destruct (ge_b (col_score v) (col_score w)) eqn:G; q_facts.
    + constructor; [constructor; assumption|].
      constructor; [exact G|].
      eapply Forall_impl; [exact Hf|]. unfold score_desc. intros x Hx. lra.
    + constructor; [apply IH; exact Hr|].
      apply Stdlib.Lists.List.Forall_forall. intros x Hx.
      apply (Permutation_in _ (insert_desc_perm v rest)) in Hx.
      destruct Hx as [<- | Hx].
      * unfold score_desc. lra.
      * exact (proj1 (Stdlib.Lists.List.Forall_forall _ _) Hf x Hx).
Qed.

Lemma sort_desc_sorted (l : list valued_row) : StronglySorted score_desc (sort_desc l).
Proof.
  induction l as [|v rest IH]; simpl; [constructor|].
  apply insert_desc_sorted. exact IH.
Qed.

Lemma sorted_app_split (l1 l2 : list valued_row) :
  StronglySorted score_desc (l1 ++ l2) ->
  StronglySorted score_desc l1 /\
  (forall a b, In a l1 -> In b l2 -> score_desc a b).
Proof.
  induction l1 as [|x rest IH]; simpl; intros Hs.
  - split; [constructor | intros a b []].
  - apply StronglySorted_inv in Hs as [Hr Hf].
    destruct (IH Hr) as [Hs' Hab].
    split.
    + constructor; [exact Hs'|].
      apply Stdlib.Lists.List.Forall_forall. intros y Hy.
      apply (proj1 (Stdlib.Lists.List.Forall_forall _ _) Hf). apply in_or_app. left. exact Hy.
    + intros a b [<- | Ha] Hb.
      * apply (proj1 (Stdlib.Lists.List.Forall_forall _ _) Hf). apply in_or_app. right. exact Hb.
      * apply Hab; assumption.
Qed.

(** The leaderboard has min(5, number of rows) rows, in decreasing ESG
    Score; no row left out has a higher score than a row shown; and the rows
    shown together with those left out are exactly the rows of the frame. *)
Theorem leaderboard_top5 (df : list valued_row) :
  let top := nlargest 5 df in
  let rest := skipn 5 (sort_desc df) in
  length top = Nat.min 5 (length df) /\
  StronglySorted score_desc top /\
  (forall a b, In a top -> In b rest -> col_score b <= col_score a) /\
  Permutation (top ++ rest) df.
Proof.
  cbn zeta. unfold nlargest.
  pose proof (sort_desc_sorted df) as Hs.
  rewrite <- (firstn_skipn 5 (sort_desc df)) in Hs.
  destruct (sorted_app_split _ _ Hs) as [Htop Hab].
  split; [|split; [exact Htop | split; [exact Hab|]]].
  - rewrite length_firstn, (Permutation_length (sort_desc_perm df)). reflexivity.
  - rewrite firstn_skipn. apply sort_desc_perm.
Qed.

Example leaderboard_ex :
  map row_name (nlargest 5 ex_valued) = ["ETH"; "BTC"].
Proof. vm_compute. reflexivity. Qed.
